(** * pygame_animator: the [AnimatedCharacter] class of [game_animator.py]

    A shallow embedding of the frame addressing and the playback state of
    [AnimatedCharacter].  Python integers are [Z] ([//] and [%] are the
    floor division and modulus of [Z], and raise [ZeroDivisionError] on a
    zero divisor), the [animations] dict is a [gmap] from names to clip
    records, methods are functions on the attribute record of [self], and a
    method that can raise returns a [result] carrying the exception
    together with the attributes as they are when it is raised.

    The pygame calls ([pygame.image.load], [pygame.Surface], [blit],
    [transform.flip], [transform.scale]) are external: a loaded image is a
    value with a width and a height, the outcome of [pygame.image.load] is
    an argument of the method that calls it, and the surface a method
    builds is recorded as the description of what was drawn.  The [scale]
    attribute, a Python float, is an exact rational here. *)

From Stdlib Require Import ZArith QArith Lia List.
From stdpp Require Import base option strings list gmap.

Local Open Scope Z_scope.

(** ** Python primitives *)

Inductive exn := ZeroDivisionError | KeyError | IndexError.

(** [a // b] *)
Definition floordiv (a b : Z) : option Z :=
  if b =? 0 then None else Some (a / b).

(** [a % b] *)
Definition pymod (a b : Z) : option Z :=
  if b =? 0 then None else Some (a mod b).

(** [range(n)] *)
Definition range (n : Z) : list Z := seqZ 0 n.

(** [l[i]]: a negative index counts from the end of the list, an index
    outside [-len(l) .. len(l)-1] raises [IndexError] (here [None]). *)
Definition getitem {A : Type} (l : list A) (i : Z) : option A :=
  let n := Z.of_nat (length l) in
  if (0 <=? i) && (i <? n) then l !! Z.to_nat i
  else if (- n <=? i) && (i <? 0) then l !! Z.to_nat (n + i)
  else None.

(** [int(q)]: truncation towards zero. *)
Definition int (q : Q) : Z := Z.quot (Qnum q) (Z.pos (Qden q)).

(** ** Data *)

(** A loaded image ([pygame.image.load]): the file it was read from and the
    size [get_width()], [get_height()] report. *)
Record Surface := mkSurface {
  file : string;
  get_width : Z;
  get_height : Z
}.

(** The ['mode'] of a clip with the keys only that mode has:
    ['frame_positions'] for the clips cut from the master sheet, and
    ['start_frame'], ['end_frame'] for a range clip. *)
Inductive Mode :=
| separate
| master (frame_positions : list (Z * Z))
| range_mode (frame_positions : list (Z * Z)) (start_frame end_frame : Z).

(** One value of the [animations] dict. *)
Record Animation := mkAnimation {
  mode : Mode;
  sprite_image : Surface;
  frame_width : Z;
  frame_height : Z;
  frames : Z;
  speed : Z;
  loop : bool;
  finished : bool
}.

(** [animation['finished'] = b] *)
Definition set_finished (b : bool) (a : Animation) : Animation :=
  mkAnimation (mode a) (sprite_image a) (frame_width a) (frame_height a)
              (frames a) (speed a) (loop a) b.

(** What [self.image] shows: the empty surface of [pygame.Surface((w, h))],
    or the frame [_update_image] cut out of a sheet, with the source
    rectangle, whether it was mirrored, and its final size. *)
Inductive Image :=
| blank (w h : Z)
| frame (src : Surface) (src_rect : Z * Z * Z * Z) (flipped : bool) (w h : Z).

(** [pygame.Rect]: left, top, width, height. *)
Definition Rect : Type := Z * Z * Z * Z.

(** [rect.center]; pygame halves the size with C's integer division. *)
Definition center (r : Rect) : Z * Z :=
  let '(l, t, w, h) := r in (l + Z.quot w 2, t + Z.quot h 2).

(** [rect.center = c] *)
Definition set_center (c : Z * Z) (r : Rect) : Rect :=
  let '(_, _, w, h) := r in (fst c - Z.quot w 2, snd c - Z.quot h 2, w, h).

Definition AUTO_FLIP : string := "auto_flip".
Definition SEPARATE_DIRECTIONS : string := "separate_directions".
Definition NO_FLIP : string := "no_flip".

(** The attributes of an [AnimatedCharacter]. *)
Record AnimatedCharacter := mkCharacter {
  x : Z;
  y : Z;
  scale : Q;
  direction_mode : string;
  animations : gmap string Animation;
  current_animation : option string;
  current_frame : Z;
  animation_timer : Z;
  animation_speed : Z;
  facing_right : bool;
  current_frame_width : Z;
  current_frame_height : Z;
  master_sprite_sheet : option Surface;
  master_frame_width : Z;
  master_frame_height : Z;
  master_columns : Z;
  next_frame_index : Z;
  image : Image;
  rect : Rect;
  _original_image : option Image
}.

(** The outcome of a method call: the value it returns with the attributes
    after the call, or the exception it raises with the attributes at that
    point. *)
Inductive result (A : Type) :=
| Ok (ret : A) (self : AnimatedCharacter)
| Raise (e : exn) (self : AnimatedCharacter).
Arguments Ok {A} ret self.
Arguments Raise {A} e self.

Definition state_of {A : Type} (r : result A) : AnimatedCharacter :=
  match r with Ok _ s => s | Raise _ s => s end.

(** ** Attribute assignment

    [with_f v self] is [self.f = v]: every other attribute keeps its value. *)

Definition with_x (v : Z) (self : AnimatedCharacter) :
  AnimatedCharacter :=
  mkCharacter v (y self) (scale self) (direction_mode self)
    (animations self) (current_animation self) (current_frame self)
    (animation_timer self) (animation_speed self) (facing_right self)
    (current_frame_width self) (current_frame_height self)
    (master_sprite_sheet self) (master_frame_width self)
    (master_frame_height self) (master_columns self) (next_frame_index self)
    (image self) (rect self) (_original_image self).

Definition with_y (v : Z) (self : AnimatedCharacter) :
  AnimatedCharacter :=
  mkCharacter (x self) v (scale self) (direction_mode self)
    (animations self) (current_animation self) (current_frame self)
    (animation_timer self) (animation_speed self) (facing_right self)
    (current_frame_width self) (current_frame_height self)
    (master_sprite_sheet self) (master_frame_width self)
    (master_frame_height self) (master_columns self) (next_frame_index self)
    (image self) (rect self) (_original_image self).

Definition with_direction_mode (v : string) (self : AnimatedCharacter) :
  AnimatedCharacter :=
  mkCharacter (x self) (y self) (scale self) v (animations self)
    (current_animation self) (current_frame self) (animation_timer self)
    (animation_speed self) (facing_right self) (current_frame_width self)
    (current_frame_height self) (master_sprite_sheet self)
    (master_frame_width self) (master_frame_height self)
    (master_columns self) (next_frame_index self) (image self) (rect self)
    (_original_image self).

Definition with_animations (v : gmap string Animation) (self : AnimatedCharacter) :
  AnimatedCharacter :=
  mkCharacter (x self) (y self) (scale self) (direction_mode self) v
    (current_animation self) (current_frame self) (animation_timer self)
    (animation_speed self) (facing_right self) (current_frame_width self)
    (current_frame_height self) (master_sprite_sheet self)
    (master_frame_width self) (master_frame_height self)
    (master_columns self) (next_frame_index self) (image self) (rect self)
    (_original_image self).

Definition with_current_animation (v : option string) (self : AnimatedCharacter) :
  AnimatedCharacter :=
  mkCharacter (x self) (y self) (scale self) (direction_mode self)
    (animations self) v (current_frame self) (animation_timer self)
    (animation_speed self) (facing_right self) (current_frame_width self)
    (current_frame_height self) (master_sprite_sheet self)
    (master_frame_width self) (master_frame_height self)
    (master_columns self) (next_frame_index self) (image self) (rect self)
    (_original_image self).

Definition with_current_frame (v : Z) (self : AnimatedCharacter) :
  AnimatedCharacter :=
  mkCharacter (x self) (y self) (scale self) (direction_mode self)
    (animations self) (current_animation self) v (animation_timer self)
    (animation_speed self) (facing_right self) (current_frame_width self)
    (current_frame_height self) (master_sprite_sheet self)
    (master_frame_width self) (master_frame_height self)
    (master_columns self) (next_frame_index self) (image self) (rect self)
    (_original_image self).

Definition with_animation_timer (v : Z) (self : AnimatedCharacter) :
  AnimatedCharacter :=
  mkCharacter (x self) (y self) (scale self) (direction_mode self)
    (animations self) (current_animation self) (current_frame self) v
    (animation_speed self) (facing_right self) (current_frame_width self)
    (current_frame_height self) (master_sprite_sheet self)
    (master_frame_width self) (master_frame_height self)
    (master_columns self) (next_frame_index self) (image self) (rect self)
    (_original_image self).

Definition with_animation_speed (v : Z) (self : AnimatedCharacter) :
  AnimatedCharacter :=
  mkCharacter (x self) (y self) (scale self) (direction_mode self)
    (animations self) (current_animation self) (current_frame self)
    (animation_timer self) v (facing_right self) (current_frame_width self)
    (current_frame_height self) (master_sprite_sheet self)
    (master_frame_width self) (master_frame_height self)
    (master_columns self) (next_frame_index self) (image self) (rect self)
    (_original_image self).

Definition with_facing_right (v : bool) (self : AnimatedCharacter) :
  AnimatedCharacter :=
  mkCharacter (x self) (y self) (scale self) (direction_mode self)
    (animations self) (current_animation self) (current_frame self)
    (animation_timer self) (animation_speed self) v
    (current_frame_width self) (current_frame_height self)
    (master_sprite_sheet self) (master_frame_width self)
    (master_frame_height self) (master_columns self) (next_frame_index self)
    (image self) (rect self) (_original_image self).

Definition with_current_frame_width (v : Z) (self : AnimatedCharacter) :
  AnimatedCharacter :=
  mkCharacter (x self) (y self) (scale self) (direction_mode self)
    (animations self) (current_animation self) (current_frame self)
    (animation_timer self) (animation_speed self) (facing_right self) v
    (current_frame_height self) (master_sprite_sheet self)
    (master_frame_width self) (master_frame_height self)
    (master_columns self) (next_frame_index self) (image self) (rect self)
    (_original_image self).

Definition with_current_frame_height (v : Z) (self : AnimatedCharacter) :
  AnimatedCharacter :=
  mkCharacter (x self) (y self) (scale self) (direction_mode self)
    (animations self) (current_animation self) (current_frame self)
    (animation_timer self) (animation_speed self) (facing_right self)
    (current_frame_width self) v (master_sprite_sheet self)
    (master_frame_width self) (master_frame_height self)
    (master_columns self) (next_frame_index self) (image self) (rect self)
    (_original_image self).

Definition with_master_sprite_sheet (v : option Surface) (self : AnimatedCharacter) :
  AnimatedCharacter :=
  mkCharacter (x self) (y self) (scale self) (direction_mode self)
    (animations self) (current_animation self) (current_frame self)
    (animation_timer self) (animation_speed self) (facing_right self)
    (current_frame_width self) (current_frame_height self) v
    (master_frame_width self) (master_frame_height self)
    (master_columns self) (next_frame_index self) (image self) (rect self)
    (_original_image self).

Definition with_master_frame_width (v : Z) (self : AnimatedCharacter) :
  AnimatedCharacter :=
  mkCharacter (x self) (y self) (scale self) (direction_mode self)
    (animations self) (current_animation self) (current_frame self)
    (animation_timer self) (animation_speed self) (facing_right self)
    (current_frame_width self) (current_frame_height self)
    (master_sprite_sheet self) v (master_frame_height self)
    (master_columns self) (next_frame_index self) (image self) (rect self)
    (_original_image self).

Definition with_master_frame_height (v : Z) (self : AnimatedCharacter) :
  AnimatedCharacter :=
  mkCharacter (x self) (y self) (scale self) (direction_mode self)
    (animations self) (current_animation self) (current_frame self)
    (animation_timer self) (animation_speed self) (facing_right self)
    (current_frame_width self) (current_frame_height self)
    (master_sprite_sheet self) (master_frame_width self) v
    (master_columns self) (next_frame_index self) (image self) (rect self)
    (_original_image self).

Definition with_master_columns (v : Z) (self : AnimatedCharacter) :
  AnimatedCharacter :=
  mkCharacter (x self) (y self) (scale self) (direction_mode self)
    (animations self) (current_animation self) (current_frame self)
    (animation_timer self) (animation_speed self) (facing_right self)
    (current_frame_width self) (current_frame_height self)
    (master_sprite_sheet self) (master_frame_width self)
    (master_frame_height self) v (next_frame_index self) (image self)
    (rect self) (_original_image self).

Definition with_next_frame_index (v : Z) (self : AnimatedCharacter) :
  AnimatedCharacter :=
  mkCharacter (x self) (y self) (scale self) (direction_mode self)
    (animations self) (current_animation self) (current_frame self)
    (animation_timer self) (animation_speed self) (facing_right self)
    (current_frame_width self) (current_frame_height self)
    (master_sprite_sheet self) (master_frame_width self)
    (master_frame_height self) (master_columns self) v (image self)
    (rect self) (_original_image self).

Definition with_image (v : Image) (self : AnimatedCharacter) :
  AnimatedCharacter :=
  mkCharacter (x self) (y self) (scale self) (direction_mode self)
    (animations self) (current_animation self) (current_frame self)
    (animation_timer self) (animation_speed self) (facing_right self)
    (current_frame_width self) (current_frame_height self)
    (master_sprite_sheet self) (master_frame_width self)
    (master_frame_height self) (master_columns self) (next_frame_index self)
    v (rect self) (_original_image self).

Definition with_rect (v : Rect) (self : AnimatedCharacter) :
  AnimatedCharacter :=
  mkCharacter (x self) (y self) (scale self) (direction_mode self)
    (animations self) (current_animation self) (current_frame self)
    (animation_timer self) (animation_speed self) (facing_right self)
    (current_frame_width self) (current_frame_height self)
    (master_sprite_sheet self) (master_frame_width self)
    (master_frame_height self) (master_columns self) (next_frame_index self)
    (image self) v (_original_image self).

Definition with_original_image (v : option Image) (self : AnimatedCharacter) :
  AnimatedCharacter :=
  mkCharacter (x self) (y self) (scale self) (direction_mode self)
    (animations self) (current_animation self) (current_frame self)
    (animation_timer self) (animation_speed self) (facing_right self)
    (current_frame_width self) (current_frame_height self)
    (master_sprite_sheet self) (master_frame_width self)
    (master_frame_height self) (master_columns self) (next_frame_index self)
    (image self) (rect self) v.

(** ** Methods of [AnimatedCharacter] *)

Definition __init__ (x y : Z) (scale : Q) (direction_mode : string) :
  AnimatedCharacter :=
  mkCharacter x y scale direction_mode ∅ None 0 0 10 true 64 64
    None 64 64 8 0 (blank 64 64) (x, y, 64, 64) None.

Definition set_direction_mode (mode : string) (self : AnimatedCharacter) :
  AnimatedCharacter :=
  if bool_decide (mode ∈ [AUTO_FLIP; SEPARATE_DIRECTIONS; NO_FLIP])
  then with_direction_mode mode self
  else self.

Definition set_facing_direction (facing_right : bool)
  (self : AnimatedCharacter) : AnimatedCharacter :=
  with_facing_right facing_right self.

(** [loaded] is what [pygame.image.load(sprite_file)] gives: the image, or
    [None] when it raises (the [except] branch). *)
Definition load_master_sprite_sheet (loaded : option Surface)
  (frame_width frame_height columns : Z) (self : AnimatedCharacter) :
  result bool :=
  match loaded with
  | Some sheet =>
      let self := with_master_sprite_sheet (Some sheet) self in
      let self := with_master_frame_width frame_width self in
      let self := with_master_frame_height frame_height self in
      let self := with_master_columns columns self in
      let self := with_next_frame_index 0 self in
      Ok true self
  | None => Ok false self
  end.

Definition _update_sprite_attributes (self : AnimatedCharacter) :
  AnimatedCharacter :=
  let scaled_width := int (inject_Z (current_frame_width self) * scale self) in
  let scaled_height := int (inject_Z (current_frame_height self) * scale self) in
  let self := with_image (blank scaled_width scaled_height) self in
  let old_center := center (rect self) in
  let self :=
    with_rect (set_center old_center (0, 0, scaled_width, scaled_height)) self in
  let self := with_x (rect self).1.1.1 self in
  with_y (rect self).1.1.2 self.

(** The block that closes the three registration methods: "if this is the
    first animation, make it the current one". *)
Definition make_current_if_first (name : string) (speed width height : Z)
  (self : AnimatedCharacter) : AnimatedCharacter :=
  match current_animation self with
  | None =>
      let self := with_current_animation (Some name) self in
      let self := with_animation_speed speed self in
      let self := with_current_frame_width width self in
      let self := with_current_frame_height height self in
      _update_sprite_attributes self
  | Some _ => self
  end.

(** The body of the loops that fill [frame_positions]: the pixel position
    of the cell with 0-based index [index] in the master sheet. *)
Definition frame_position (self : AnimatedCharacter) (index : Z) :
  option (Z * Z) :=
  match floordiv index (master_columns self) with
  | None => None
  | Some row =>
      match pymod index (master_columns self) with
      | None => None
      | Some col =>
          Some (col * master_frame_width self, row * master_frame_height self)
      end
  end.

Definition add_animation_from_master (name : string) (frames speed : Z)
  (loop : bool) (self : AnimatedCharacter) : result bool :=
  match master_sprite_sheet self with
  | None => Ok false self
  | Some sheet =>
      match mapM (λ i, frame_position self (next_frame_index self + i))
                 (range frames) with
      | None => Raise ZeroDivisionError self
      | Some frame_positions =>
          let animation :=
            mkAnimation (master frame_positions) sheet
              (master_frame_width self) (master_frame_height self)
              frames speed loop false in
          let self := with_animations (<[name := animation]> (animations self)) self in
          let self := with_next_frame_index (next_frame_index self + frames) self in
          let self :=
            make_current_if_first name speed (master_frame_width self)
              (master_frame_height self) self in
          Ok true self
      end
  end.

(** [loaded] is the outcome of [pygame.image.load(sprite_file)]; [None] is
    the [except] branch. *)
Definition add_animation (name : string) (loaded : option Surface)
  (frame_width frame_height frames speed : Z) (loop : bool)
  (self : AnimatedCharacter) : result bool :=
  match loaded with
  | Some sprite_image =>
      let animation :=
        mkAnimation separate sprite_image frame_width frame_height
          frames speed loop false in
      let self := with_animations (<[name := animation]> (animations self)) self in
      let self := make_current_if_first name speed frame_width frame_height self in
      Ok true self
  | None => Ok false self
  end.

Definition bind {A B : Type} (r : result A)
  (k : A → AnimatedCharacter → result B) : result B :=
  match r with
  | Ok a self => k a self
  | Raise e self => Raise e self
  end.

Definition add_directional_animation (base_name : string)
  (left_sprite right_sprite : option Surface)
  (frame_width frame_height frames speed : Z) (loop : bool)
  (self : AnimatedCharacter) : result bool :=
  bind (add_animation (base_name +:+ "_left") left_sprite
          frame_width frame_height frames speed loop self)
    (λ left_success self,
       bind (add_animation (base_name +:+ "_right") right_sprite
               frame_width frame_height frames speed loop self)
         (λ right_success self, Ok (left_success && right_success) self)).

Definition play_animation (name : string) (reset : bool)
  (self : AnimatedCharacter) : AnimatedCharacter :=
  let resolved : option string :=
    if bool_decide (direction_mode self = SEPARATE_DIRECTIONS) then
      let direction_suffix := if facing_right self then "_right" else "_left" in
      let directional_name := name +:+ direction_suffix in
      match animations self !! directional_name with
      | Some _ => Some directional_name
      | None =>
          match animations self !! name with
          | Some _ => Some name
          | None => None
          end
      end
    else Some name in
  match resolved with
  | None => self
  | Some name =>
      match animations self !! name with
      | None => self
      | Some animation =>
          if negb (bool_decide (current_animation self = Some name)) || reset
          then
            let self := with_current_animation (Some name) self in
            let self := with_current_frame 0 self in
            let self := with_animation_timer 0 self in
            let self := with_animation_speed (speed animation) self in
            let self := with_current_frame_width (frame_width animation) self in
            let self := with_current_frame_height (frame_height animation) self in
            let self :=
              with_animations
                (<[name := set_finished false animation]> (animations self)) self in
            _update_sprite_attributes self
          else self
      end
  end.

Definition _update_image (self : AnimatedCharacter) : result unit :=
  match current_animation self with
  | None => Ok () self
  | Some current =>
      match animations self !! current with
      | None => Raise KeyError self
      | Some animation =>
          let frame_width := frame_width animation in
          let frame_height := frame_height animation in
          let position :=
            match mode animation with
            | master frame_positions
            | range_mode frame_positions _ _ =>
                getitem frame_positions (current_frame self)
            | separate => Some (current_frame self * frame_width, 0)
            end in
          match position with
          | None => Raise IndexError self
          | Some (frame_x, frame_y) =>
              let frame_rect := (frame_x, frame_y, frame_width, frame_height) in
              let flipped :=
                bool_decide (direction_mode self = AUTO_FLIP)
                && negb (facing_right self) in
              let '(w, h) :=
                if negb (Qeq_bool (scale self) 1)
                then (int (inject_Z frame_width * scale self),
                      int (inject_Z frame_height * scale self))
                else (frame_width, frame_height) in
              let frame_surface :=
                frame (sprite_image animation) frame_rect flipped w h in
              let self := with_image frame_surface self in
              Ok () (with_original_image (Some frame_surface) self)
          end
      end
  end.

Definition update (self : AnimatedCharacter) : result unit :=
  match current_animation self with
  | None => Ok () self
  | Some current =>
      match animations self !! current with
      | None => Raise KeyError self
      | Some animation =>
          let self := with_animation_timer (animation_timer self + 1) self in
          let self :=
            if animation_speed self <=? animation_timer self then
              let self := with_animation_timer 0 self in
              let self := with_current_frame (current_frame self + 1) self in
              if frames animation <=? current_frame self then
                if loop animation then with_current_frame 0 self
                else
                  let self := with_current_frame (frames animation - 1) self in
                  with_animations
                    (<[current := set_finished true animation]> (animations self))
                    self
              else self
            else self in
          _update_image self
      end
  end.

Definition move (dx dy : Z) (self : AnimatedCharacter) : AnimatedCharacter :=
  let self := with_x (x self + dx) self in
  let self := with_y (y self + dy) self in
  let self := with_rect (let '(_, t, w, h) := rect self in (x self, t, w, h)) self in
  let self := with_rect (let '(l, _, w, h) := rect self in (l, y self, w, h)) self in
  if negb (bool_decide (direction_mode self = NO_FLIP)) then
    if 0 <? dx then with_facing_right true self
    else if dx <? 0 then with_facing_right false self
    else self
  else self.

Definition set_position (x y : Z) (self : AnimatedCharacter) :
  AnimatedCharacter :=
  let self := with_x x self in
  let self := with_y y self in
  let self := with_rect (let '(_, t, w, h) := rect self in (x, t, w, h)) self in
  with_rect (let '(l, _, w, h) := rect self in (l, y, w, h)) self.

Definition is_animation_finished (self : AnimatedCharacter) : result bool :=
  match current_animation self with
  | None => Ok true self
  | Some current =>
      match animations self !! current with
      | None => Raise KeyError self
      | Some animation => Ok (finished animation) self
      end
  end.

(** The capacity of the master sheet, as [add_animation_from_range] and
    [show_frame_grid] compute it: [total_columns * total_rows]. *)
Definition total_frames (sheet : Surface) (self : AnimatedCharacter) :
  option Z :=
  match floordiv (get_width sheet) (master_frame_width self) with
  | None => None
  | Some total_columns =>
      match floordiv (get_height sheet) (master_frame_height self) with
      | None => None
      | Some total_rows => Some (total_columns * total_rows)
      end
  end.

Definition add_animation_from_range (name : string)
  (start_frame end_frame speed : Z) (loop : bool)
  (self : AnimatedCharacter) : result bool :=
  match master_sprite_sheet self with
  | None => Ok false self
  | Some sheet =>
      if start_frame <? 1 then Ok false self
      else if end_frame <? start_frame then Ok false self
      else
        match total_frames sheet self with
        | None => Raise ZeroDivisionError self
        | Some total_frames =>
            if total_frames <? end_frame then Ok false self
            else
              let frames_count := end_frame - start_frame + 1 in
              match mapM (λ i, frame_position self ((start_frame - 1) + i))
                         (range frames_count) with
              | None => Raise ZeroDivisionError self
              | Some frame_positions =>
                  let animation :=
                    mkAnimation
                      (range_mode frame_positions start_frame end_frame)
                      sheet (master_frame_width self)
                      (master_frame_height self)
                      frames_count speed loop false in
                  let self :=
                    with_animations (<[name := animation]> (animations self))
                      self in
                  let self :=
                    make_current_if_first name speed
                      (master_frame_width self) (master_frame_height self)
                      self in
                  Ok true self
              end
        end
  end.

(** ** Sequences of calls *)

(** A call of a public method, with the outcome of the image loads it
    makes. *)
Inductive Call :=
| call_set_direction_mode (mode : string)
| call_set_facing_direction (facing_right : bool)
| call_load_master_sprite_sheet (loaded : option Surface)
    (frame_width frame_height columns : Z)
| call_add_animation_from_master (name : string) (frames speed : Z)
    (loop : bool)
| call_add_animation (name : string) (loaded : option Surface)
    (frame_width frame_height frames speed : Z) (loop : bool)
| call_add_directional_animation (base_name : string)
    (left_sprite right_sprite : option Surface)
    (frame_width frame_height frames speed : Z) (loop : bool)
| call_play_animation (name : string) (reset : bool)
| call_update
| call_move (dx dy : Z)
| call_set_position (x y : Z)
| call_add_animation_from_range (name : string)
    (start_frame end_frame speed : Z) (loop : bool).

(** The attributes after a call, whether it returned or raised. *)
Definition call (c : Call) (self : AnimatedCharacter) : AnimatedCharacter :=
  match c with
  | call_set_direction_mode mode => set_direction_mode mode self
  | call_set_facing_direction f => set_facing_direction f self
  | call_load_master_sprite_sheet loaded w h columns =>
      state_of (load_master_sprite_sheet loaded w h columns self)
  | call_add_animation_from_master name frames speed loop =>
      state_of (add_animation_from_master name frames speed loop self)
  | call_add_animation name loaded w h frames speed loop =>
      state_of (add_animation name loaded w h frames speed loop self)
  | call_add_directional_animation base l r w h frames speed loop =>
      state_of (add_directional_animation base l r w h frames speed loop self)
  | call_play_animation name reset => play_animation name reset self
  | call_update => state_of (update self)
  | call_move dx dy => move dx dy self
  | call_set_position x y => set_position x y self
  | call_add_animation_from_range name s e speed loop =>
      state_of (add_animation_from_range name s e speed loop self)
  end.

(** The characters a program can hold: a newly constructed one, and what
    a call makes of one. *)
Inductive reachable : AnimatedCharacter → Prop :=
| reachable_init x y scale direction_mode :
    reachable (__init__ x y scale direction_mode)
| reachable_call c self :
    reachable self → reachable (call c self).


(** ** The frame grid of the specification *)

(** The pixel position of the cell with 0-based index [index] in a grid
    with [columns] cells per row: [(col*cellWidth, row*cellHeight)] with
    [row = index div columns] and [col = index mod columns]. *)
Definition grid_position (columns cell_width cell_height index : Z) : Z * Z :=
  ((index mod columns) * cell_width, (index / columns) * cell_height).

(** ** Characters used as examples *)

(** A 512x512 sheet of 64x64 cells, eight to a row: 64 frames. *)
Definition sheet512 : Surface := mkSurface "platformer_sprites_base.png" 512 512.

(** [AnimatedCharacter(400, 300, 3.0)] after
    [load_master_sprite_sheet("platformer_sprites_base.png", 64, 64)]. *)
Definition hero : AnimatedCharacter :=
  call (call_load_master_sprite_sheet (Some sheet512) 64 64 8)
    (__init__ 400 300 3 AUTO_FLIP).

(** The same character told to use separate clips per direction, with a
    clip for walking right and a clip without direction. *)
Definition directional_hero : AnimatedCharacter :=
  call (call_add_animation "idle" (Some sheet512) 64 64 4 15 true)
    (call (call_add_animation "walk_right" (Some sheet512) 64 64 4 8 true)
       (set_direction_mode SEPARATE_DIRECTIONS hero)).

(** The clip of frames 33 to 40, and the character that plays it. *)
Definition walk_clip : Animation :=
  mkAnimation
    (range_mode [(0, 256); (64, 256); (128, 256); (192, 256);
                 (256, 256); (320, 256); (384, 256); (448, 256)] 33 40)
    sheet512 64 64 8 12 true false.

Definition walking_hero : AnimatedCharacter :=
  call (call_play_animation "walk" true)
    (call (call_add_animation_from_range "walk" 33 40 12 true) hero).





(** ** Predicates of the statements *)

(** [play_animation] has put the clip [resolved] on: it is the current
    animation, and unless it was current already and no reset was asked
    for, playback starts again at frame 0 and tick 0 with the clip's speed
    and its [finished] flag cleared. *)
Definition plays (resolved : string) (reset : bool)
  (self self' : AnimatedCharacter) : Prop :=
  current_animation self' = Some resolved ∧
  (reset = true ∨ current_animation self ≠ Some resolved →
   ∃ animation,
     animations self !! resolved = Some animation ∧
     current_frame self' = 0 ∧ animation_timer self' = 0 ∧
     animation_speed self' = speed animation ∧
     animations self' =
       <[resolved := set_finished false animation]> (animations self)).

(** A clip cut from the master sheet has one position per frame. *)
Definition positions_fit (a : Animation) : Prop :=
  match mode a with
  | separate => True
  | master frame_positions
  | range_mode frame_positions _ _ =>
      length frame_positions = Z.to_nat (frames a)
  end.

(** What every reachable character satisfies: the current animation is
    unset only while no clip is registered, it names a registered clip when
    set, every clip has its positions, and a looping clip is never
    finished. *)
Definition well_formed (self : AnimatedCharacter) : Prop :=
  (current_animation self = None → animations self = ∅) ∧
  (∀ name, current_animation self = Some name →
           is_Some (animations self !! name)) ∧
  (∀ name a, animations self !! name = Some a →
             positions_fit a ∧ (loop a = true → finished a = false)).

(** A call that returned [True]. *)
Definition succeeds (r : result bool) : bool :=
  match r with
  | Ok true _ => true
  | _ => false
  end.











(** ** The rest of the module *)

(** A program: the calls made on a character, in order. *)
Definition run (calls : list Call) (self : AnimatedCharacter) :
  AnimatedCharacter :=
  fold_left (λ self c, call c self) calls self.

(** The three modes [set_direction_mode] accepts. *)
Definition known_mode (mode : string) : Prop :=
  mode ∈ [AUTO_FLIP; SEPARATE_DIRECTIONS; NO_FLIP].


(** [create_hero_separate_sprites]; the three arguments are the outcomes of
    loading [idle_sprite], [walk_sprite] and [jump_sprite].  The values the
    registrations return are dropped, as in the source. *)
Definition create_hero_separate_sprites (x y : Z) (scale : Q)
  (idle_sprite walk_sprite jump_sprite : option Surface) (frame_size : Z) :
  result unit :=
  let hero := __init__ x y scale AUTO_FLIP in
  bind (add_animation "idle" idle_sprite frame_size frame_size 4 15 true hero)
    (λ _ hero,
       bind (add_animation "walk" walk_sprite frame_size frame_size 4 8 true hero)
         (λ _ hero,
            bind (add_animation "jump" jump_sprite frame_size frame_size 4 6
                    true hero)
              (λ _ hero, Ok () hero))).


Definition create_custom_hero (x y : Z) (scale : Q) : AnimatedCharacter :=
  __init__ x y scale AUTO_FLIP.

(** *** Calls with keyword arguments *)

(** The value of a keyword argument: an integer or a boolean. *)
Inductive value := VInt (n : Z) | VBool (b : bool).

(** A Python boolean used as a number, and a number used as a condition. *)
Definition as_int (v : value) : Z :=
  match v with VInt n => n | VBool b => if b then 1 else 0 end.

Definition as_bool (v : value) : bool :=
  match v with VInt n => negb (n =? 0) | VBool b => b end.

(** The outcome of a call written with keywords: the call is made, or
    Python refuses it with a [TypeError] that names the keyword, before
    the body of the method runs. *)
Inductive keyword_call (A : Type) :=
| Called (r : result A)
| TypeError (keyword : string) (self : AnimatedCharacter).
Arguments Called {A} r.
Arguments TypeError {A} keyword self.

Definition keyword (k : string) (keywords : list (string * value)) :
  option value :=
  match list_find (λ kv : string * value, kv.1 = k) keywords with
  | Some (_, (_, v)) => Some v
  | None => None
  end.

(** [self.add_animation(name, sprite_file, k1=v1, ...)]: two positional
    arguments, the rest by keyword.  The parameters left for keywords are
    [frame_width=64], [frame_height=64], [frames=4], [speed=10] and
    [loop=True]; any other keyword is a [TypeError]. *)
Definition add_animation_with (name : string) (loaded : option Surface)
  (keywords : list (string * value)) (self : AnimatedCharacter) :
  keyword_call bool :=
  match list_find
          (λ kv : string * value,
             kv.1 ∉ ["frame_width"; "frame_height"; "frames"; "speed"; "loop"])
          keywords with
  | Some (_, (k, _)) => TypeError k self
  | None =>
      Called
        (add_animation name loaded
           (default 64 (as_int <$> keyword "frame_width" keywords))
           (default 64 (as_int <$> keyword "frame_height" keywords))
           (default 4 (as_int <$> keyword "frames" keywords))
           (default 10 (as_int <$> keyword "speed" keywords))
           (default true (as_bool <$> keyword "loop" keywords))
           self)
  end.

(** The next statement of a preset: it runs on the character the previous
    call left, unless that call raised. *)
Definition and_then {A B : Type} (c : keyword_call A)
  (k : AnimatedCharacter → keyword_call B) : keyword_call B :=
  match c with
  | Called (Ok _ self) => k self
  | Called (Raise e self) => Called (Raise e self)
  | TypeError keyword self => TypeError keyword self
  end.

(** [AnimationPresets.setup_platformer_hero]; [sprite_sheet] is the outcome
    of loading [sprite_sheet_name]. *)
Definition setup_platformer_hero (character : AnimatedCharacter)
  (sprite_sheet : option Surface) : keyword_call bool :=
  let add name keywords := add_animation_with name sprite_sheet keywords in
  and_then (add "idle" [("row", VInt 0); ("frames", VInt 4); ("speed", VInt 15)]
              character) (λ character,
  and_then (add "walk" [("row", VInt 1); ("frames", VInt 8); ("speed", VInt 8)]
              character) (λ character,
  and_then (add "run" [("row", VInt 2); ("frames", VInt 8); ("speed", VInt 5)]
              character) (λ character,
  and_then (add "jump" [("row", VInt 3); ("frames", VInt 4); ("speed", VInt 6);
                        ("loop", VBool false)] character) (λ character,
  and_then (add "attack" [("row", VInt 4); ("frames", VInt 6); ("speed", VInt 4);
                          ("loop", VBool false)] character) (λ character,
  and_then (add "hit" [("row", VInt 5); ("frames", VInt 3); ("speed", VInt 8);
                       ("loop", VBool false)] character) (λ character,
  add "die" [("row", VInt 6); ("frames", VInt 4); ("speed", VInt 10);
             ("loop", VBool false)] character)))))).

(** [AnimationPresets.setup_simple_character] *)
Definition setup_simple_character (character : AnimatedCharacter)
  (sprite_sheet : option Surface) : keyword_call bool :=
  let add name keywords := add_animation_with name sprite_sheet keywords in
  and_then (add "idle" [("row", VInt 0); ("frames", VInt 4); ("speed", VInt 12)]
              character) (λ character,
  and_then (add "walk" [("row", VInt 1); ("frames", VInt 4); ("speed", VInt 8)]
              character) (λ character,
  add "jump" [("row", VInt 2); ("frames", VInt 4); ("speed", VInt 6)] character)).

(** *** Predicates of the further statements *)

(** The name [play_animation] ends up looking for: under
    [SEPARATE_DIRECTIONS] the name with the suffix of the facing if such a
    clip is registered, else the name itself if it is, else none; in the
    other modes the name itself. *)
Definition resolved_name (name : string) (self : AnimatedCharacter) :
  option string :=
  if bool_decide (direction_mode self = SEPARATE_DIRECTIONS) then
    let directional_name :=
      name +:+ (if facing_right self then "_right" else "_left") in
    match animations self !! directional_name with
    | Some _ => Some directional_name
    | None =>
        match animations self !! name with
        | Some _ => Some name
        | None => None
        end
    end
  else Some name.

(** The rectangle sits where the character is. *)
Definition rect_at_position (self : AnimatedCharacter) : Prop :=
  (rect self).1.1.1 = x self ∧ (rect self).1.1.2 = y self.

(** * Properties *)

(** Goals about the example characters are settled by evaluation. *)
Ltac evaluated := vm_compute; reflexivity.

(** ** Python primitives *)

Lemma length_range n : length (range n) = Z.to_nat n.
Proof. apply length_seqZ. Qed.




(** ** Frame positions *)

Lemma frame_position_grid self index :
  master_columns self ≠ 0 →
  frame_position self index =
    Some (grid_position (master_columns self) (master_frame_width self)
            (master_frame_height self) index).
Proof.
  intros Hc. unfold frame_position, floordiv, pymod, grid_position.
  destruct (Z.eqb_spec (master_columns self) 0); [done|reflexivity].
Qed.


Lemma mapM_total {A B : Type} (h : A → B) (l : list A) :
  mapM (λ a, Some (h a)) l = Some (h <$> l).
Proof.
  induction l as [|a l IH]; [reflexivity|].
  cbn. rewrite IH. reflexivity.
Qed.

(** With a column count that is not zero the loop over [range(n)] fills
    [frame_positions] with the grid positions of [base], [base + 1], ... *)
Lemma frame_positions_grid self base n :
  master_columns self ≠ 0 →
  mapM (λ i, frame_position self (base + i)) (range n) =
    Some ((λ i, grid_position (master_columns self) (master_frame_width self)
                  (master_frame_height self) (base + i)) <$> range n).
Proof.
  intros Hc. rewrite <- mapM_total. apply mapM_ext.
  intros i. by apply frame_position_grid.
Qed.



Lemma frame_positions_length self base n l :
  mapM (λ i, frame_position self (base + i)) (range n) = Some l →
  length l = Z.to_nat n.
Proof. intros H. apply length_mapM in H. by rewrite <- H, length_range. Qed.


(** ** Registration of a range *)



(** The scenario of the specification: frames 33 to 40 of the 512x512
    sheet are the eight cells of the fifth row. *)
Example walk_33_40 :
  ∃ self',
    add_animation_from_range "walk" 33 40 12 true hero = Ok true self' ∧
    (mode <$> animations self' !! "walk") =
      Some (range_mode [(0, 256); (64, 256); (128, 256); (192, 256);
                        (256, 256); (320, 256); (384, 256); (448, 256)]
              33 40).
Proof. eexists. split; reflexivity. Qed.

(** C2: with a master sheet set, a range with [start < 1], [end < start]
    or [end > totalFrames], where [totalFrames = (sheetWidth div
    cellWidth) * (sheetHeight div cellHeight)], is rejected: the call
    returns [False] and leaves every attribute of the character, the clip
    map and the playback state among them, as it was. *)
Theorem add_animation_from_range_invalid
  (name : string) (s e speed : Z) (loop : bool)
  (self : AnimatedCharacter) (sheet : Surface) :
  master_sprite_sheet self = Some sheet →
  s < 1 ∨ e < s ∨ (∃ total, total_frames sheet self = Some total ∧ total < e) →
  add_animation_from_range name s e speed loop self = Ok false self.
Proof.
  intros Hsheet Hbad. unfold add_animation_from_range. rewrite Hsheet.
  destruct (Z.ltb_spec s 1); [done|].
  destruct (Z.ltb_spec e s); [done|].
  destruct Hbad as [?|[?|(total & Htotal & Hlt)]]; [lia|lia|].
  rewrite Htotal. destruct (Z.ltb_spec total e); [done|lia].
Qed.

Lemma add_animation_from_range_invalid_witness :
  add_animation_from_range "x" 0 3 10 true hero = Ok false hero ∧
  add_animation_from_range "x" 5 3 10 true hero = Ok false hero ∧
  add_animation_from_range "x" 60 65 10 true hero = Ok false hero.
Proof.
  split; [|split].
  - apply (add_animation_from_range_invalid "x" 0 3 10 true hero sheet512);
      [reflexivity | left; lia].
  - apply (add_animation_from_range_invalid "x" 5 3 10 true hero sheet512);
      [reflexivity | right; left; lia].
  - apply (add_animation_from_range_invalid "x" 60 65 10 true hero sheet512);
      [reflexivity | right; right; exists 64; split; [reflexivity | lia]].
Defined.

(** ** Facing *)


Example move_facing_examples :
  facing_right (move 5 0 (with_facing_right false hero)) = true ∧
  facing_right (move (-3) 0 hero) = false ∧
  facing_right (move 0 7 (with_facing_right false hero)) = false ∧
  facing_right (move (-3) 0 (set_direction_mode NO_FLIP hero)) = true.
Proof. repeat split. Qed.

(** ** Choice of the clip to play *)

(** C6: under [SEPARATE_DIRECTIONS], [play_animation(name)] puts on the
    clip [name + "_right"] when the character faces right ([name + "_left"]
    when it faces left) if that clip is registered; otherwise the clip
    [name] if it is registered; and when neither is, the call changes
    nothing: every attribute, the current clip, the frame index, the tick
    and the [finished] flags among them, stays as it was. *)
Theorem play_animation_separate_directions
  (name : string) (reset : bool) (self : AnimatedCharacter) :
  direction_mode self = SEPARATE_DIRECTIONS →
  let directional_name :=
    name +:+ (if facing_right self then "_right" else "_left") in
  (is_Some (animations self !! directional_name) →
   plays directional_name reset self (play_animation name reset self)) ∧
  (animations self !! directional_name = None →
   is_Some (animations self !! name) →
   plays name reset self (play_animation name reset self)) ∧
  (animations self !! directional_name = None →
   animations self !! name = None →
   play_animation name reset self = self).
Proof.
  intros Hmode directional_name. unfold play_animation.
  rewrite bool_decide_eq_true_2 by done.
  fold directional_name.
  split; [|split].
  - intros [a Ha]. rewrite Ha. cbn iota beta. rewrite Ha.
    unfold plays.
    case_bool_decide as Hcur; destruct reset; cbn [negb orb];
      (split; [done|]); intros Hwhy;
      try (exists a; done).
    destruct Hwhy; done.
  - intros Hd [a Ha]. rewrite Hd, Ha. cbn iota beta. rewrite Ha.
    unfold plays.
    case_bool_decide as Hcur; destruct reset; cbn [negb orb];
      (split; [done|]); intros Hwhy;
      try (exists a; done).
    destruct Hwhy; done.
  - intros Hd Hn. by rewrite Hd, Hn.
Qed.

Lemma play_animation_separate_directions_witness :
  plays "walk_right" true directional_hero
    (play_animation "walk" true directional_hero) ∧
  plays "idle" true directional_hero
    (play_animation "idle" true directional_hero) ∧
  play_animation "jump" true directional_hero = directional_hero.
Proof.
  split; [|split].
  - apply (play_animation_separate_directions "walk" true directional_hero);
      [reflexivity | eexists; reflexivity].
  - apply (play_animation_separate_directions "idle" true directional_hero);
      [reflexivity | reflexivity | eexists; reflexivity].
  - apply (play_animation_separate_directions "jump" true directional_hero);
      reflexivity.
Defined.

(** ** Reachable characters are well formed *)

Lemma animations_make_current_if_first name speed w h self :
  animations (make_current_if_first name speed w h self) = animations self.
Proof. unfold make_current_if_first. by destruct (current_animation self). Qed.

Lemma current_make_current_if_first name speed w h self :
  current_animation (make_current_if_first name speed w h self) =
    match current_animation self with
    | None => Some name
    | Some current => Some current
    end.
Proof.
  unfold make_current_if_first.
  by destruct (current_animation self) eqn:Hcur.
Qed.

(** [_update_image] changes nothing but the two images. *)
Lemma update_image_state self :
  state_of (_update_image self) = self ∨
  ∃ img, _update_image self =
           Ok () (with_original_image (Some img) (with_image img self)).
Proof.
  unfold _update_image.
  destruct (current_animation self); [|by left].
  destruct (animations self !! s) as [a|]; [|by left].
  destruct (match mode a with
            | separate => _ | master _ => _ | range_mode _ _ _ => _
            end) as [[fx fy]|]; [|by left].
  right. destruct (negb _); eexists; reflexivity.
Qed.

Section registered.
Context (self self1 : AnimatedCharacter) (name : string) (a : Animation).
Context (speed w h : Z).
Hypothesis Hmap : animations self1 = <[name := a]> (animations self).
Hypothesis Hcur : current_animation self1 = current_animation self.
Hypothesis Hfit : positions_fit a.
Hypothesis Hloop : finished a = false.

(** The step shared by the registration methods: the clip is put in the
    dict, then made current if none was. *)
Lemma registered_well_formed :
  well_formed self →
  well_formed (make_current_if_first name speed w h self1).
Proof using Hmap Hcur Hfit Hloop.
  intros (Hnone & Hsome & Hclips). unfold well_formed.
  rewrite animations_make_current_if_first, current_make_current_if_first.
  rewrite Hmap, Hcur. split; [|split].
  - by destruct (current_animation self).
  - intros n Hn. destruct (decide (name = n)) as [->|Hne].
    + rewrite lookup_insert_eq. eauto.
    + rewrite lookup_insert_ne by done.
      destruct (current_animation self) as [c|] eqn:Hc; [|congruence].
      apply Hsome. congruence.
  - intros n b Hb. destruct (decide (name = n)) as [->|Hne].
    + rewrite lookup_insert_eq in Hb. by simplify_eq.
    + rewrite lookup_insert_ne in Hb by done. eauto.
Qed.
End registered.

Lemma init_well_formed x y scale direction_mode :
  well_formed (__init__ x y scale direction_mode).
Proof.
  split; [done|]. split; [done|]. intros n a Ha.
  cbn in Ha. by rewrite lookup_empty in Ha.
Qed.

Lemma add_animation_well_formed name loaded w h frames speed loop self :
  well_formed self →
  well_formed (state_of (add_animation name loaded w h frames speed loop self)).
Proof.
  intros Hwf. unfold add_animation. destruct loaded as [img|]; [|done].
  cbn [state_of]. by eapply registered_well_formed.
Qed.

Lemma add_animation_from_master_well_formed name frames speed loop self :
  well_formed self →
  well_formed (state_of (add_animation_from_master name frames speed loop self)).
Proof.
  intros Hwf. unfold add_animation_from_master.
  destruct (master_sprite_sheet self) as [sheet|]; [|done].
  destruct (mapM _ _) as [fps|] eqn:Hfps; [|done].
  cbn [state_of]. eapply registered_well_formed; try done.
  by apply frame_positions_length in Hfps.
Qed.

Lemma add_animation_from_range_well_formed name s e speed loop self :
  well_formed self →
  well_formed (state_of (add_animation_from_range name s e speed loop self)).
Proof.
  intros Hwf. unfold add_animation_from_range.
  destruct (master_sprite_sheet self) as [sheet|]; [|done].
  destruct (s <? 1); [done|]. destruct (e <? s); [done|].
  destruct (total_frames sheet self) as [total|]; [|done].
  destruct (total <? e); [done|].
  destruct (mapM _ _) as [fps|] eqn:Hfps; [|done].
  cbn [state_of]. eapply registered_well_formed; try done.
  by apply frame_positions_length in Hfps.
Qed.

Lemma add_directional_animation_well_formed
  base l r w h frames speed loop self :
  well_formed self →
  well_formed
    (state_of (add_directional_animation base l r w h frames speed loop self)).
Proof.
  intros Hwf. unfold add_directional_animation.
  pose proof (add_animation_well_formed (base +:+ "_left") l w h frames speed
                loop self Hwf) as H1.
  destruct (add_animation (base +:+ "_left") l w h frames speed loop self)
    as [ret1 self1|ex self1] eqn:E1; cbn [bind state_of] in *.
  - pose proof (add_animation_well_formed (base +:+ "_right") r w h frames
                  speed loop self1 H1) as H2.
    by destruct (add_animation (base +:+ "_right") r w h frames speed loop self1).
  - done.
Qed.

Lemma play_animation_well_formed name reset self :
  well_formed self → well_formed (play_animation name reset self).
Proof.
  intros Hwf. unfold play_animation.
  destruct (if bool_decide _ then _ else _) as [resolved|]; [|done].
  destruct (animations self !! resolved) as [a|] eqn:Ha; [|done].
  destruct (negb _ || reset); [|done].
  destruct Hwf as (Hnone & Hsome & Hclips).
  destruct (Hclips _ _ Ha) as [Hfit Hloop].
  split; [done|]. split.
  - intros n Hn. cbn in Hn. simplify_eq. cbn. rewrite lookup_insert_eq. eauto.
  - intros n b Hb. cbn in Hb.
    destruct (decide (resolved = n)) as [->|Hne].
    + rewrite lookup_insert_eq in Hb. by simplify_eq.
    + rewrite lookup_insert_ne in Hb by done. eauto.
Qed.

Lemma update_well_formed self :
  well_formed self → well_formed (state_of (update self)).
Proof.
  intros Hwf. unfold update.
  destruct (current_animation self) as [c|] eqn:Hc; [|done].
  destruct (animations self !! c) as [a|] eqn:Ha; [|done].
  match goal with |- well_formed (state_of (_update_image ?s)) =>
    assert (well_formed s) as Hs; [|
      destruct (update_image_state s) as [->|[img ->]]; [done|];
      destruct Hs as (?&?&?); by split_and! ]
  end.
  destruct Hwf as (Hnone & Hsome & Hclips).
  destruct (Hclips _ _ Ha) as [Hfit Hloop].
  cbn. destruct (_ <=? _); [|by split_and!].
  cbn. destruct (_ <=? _); [|by split_and!].
  destruct (loop a) eqn:El; [by split_and!|].
  split; [cbn; by rewrite Hc|]. split.
  - intros n Hn. cbn in Hn. rewrite Hc in Hn. simplify_eq. cbn.
    rewrite lookup_insert_eq. eauto.
  - intros n b Hb. cbn in Hb.
    destruct (decide (c = n)) as [->|Hne].
    + rewrite lookup_insert_eq in Hb. simplify_eq.
      split; [done|]. cbn. congruence.
    + rewrite lookup_insert_ne in Hb by done. eauto.
Qed.

Lemma reachable_well_formed self : reachable self → well_formed self.
Proof.
  induction 1 as [|c self Hreach IH]; [apply init_well_formed|].
  destruct c; cbn [call].
  - unfold set_direction_mode. by destruct (bool_decide _).
  - done.
  - unfold load_master_sprite_sheet. by destruct loaded.
  - by apply add_animation_from_master_well_formed.
  - by apply add_animation_well_formed.
  - by apply add_directional_animation_well_formed.
  - by apply play_animation_well_formed.
  - by apply update_well_formed.
  - unfold move. destruct IH as (?&?&?).
    destruct (negb _); [|by split_and!].
    destruct (0 <? dx); [by split_and!|].
    destruct (dx <? 0); by split_and!.
  - done.
  - by apply add_animation_from_range_well_formed.
Qed.

(** ** One call of [update] *)




Section playback.
Context (self : AnimatedCharacter) (c : string) (a : Animation).
Hypothesis Hc : current_animation self = Some c.
Hypothesis Ha : animations self !! c = Some a.
Hypothesis Hfit : positions_fit a.
Hypothesis Hframes : 1 ≤ frames a.
Hypothesis Hspeed : 1 ≤ animation_speed self.
Hypothesis Hframe0 : current_frame self = 0.
Hypothesis Htimer0 : animation_timer self = 0.





End playback.

(** ** Playback of a clip *)


Lemma walking_hero_reachable : reachable walking_hero.
Proof. repeat apply reachable_call. apply reachable_init. Qed.







(** ** Sequential registration *)


(** No check against the capacity: a hundred frames fit a sheet of 64. *)
Example add_animation_from_master_beyond_capacity :
  total_frames sheet512 hero = Some 64 ∧
  succeeds (add_animation_from_master "all" 100 10 true hero) = true.
Proof. split; evaluated. Qed.


(** ** Registration and the current animation *)

Lemma add_animation_current name loaded w h frames speed loop self self' :
  add_animation name loaded w h frames speed loop self = Ok true self' →
  current_animation self' =
    Some (default name (current_animation self)).
Proof.
  unfold add_animation. destruct loaded; [|done]. intros [= <-].
  rewrite current_make_current_if_first.
  by destruct (current_animation self) eqn:Hc; cbn; rewrite Hc.
Qed.

Lemma add_animation_from_master_current name n speed loop self self' :
  add_animation_from_master name n speed loop self = Ok true self' →
  current_animation self' =
    Some (default name (current_animation self)).
Proof.
  unfold add_animation_from_master.
  destruct (master_sprite_sheet self); [|done].
  destruct (mapM _ _); [|done]. intros [= <-].
  rewrite current_make_current_if_first.
  by destruct (current_animation self) eqn:Hc; cbn; rewrite Hc.
Qed.

Lemma add_animation_from_range_current name s e speed loop self self' :
  add_animation_from_range name s e speed loop self = Ok true self' →
  current_animation self' =
    Some (default name (current_animation self)).
Proof.
  unfold add_animation_from_range.
  destruct (master_sprite_sheet self) as [sheet|]; [|done].
  destruct (s <? 1); [done|]. destruct (e <? s); [done|].
  destruct (total_frames sheet self) as [total|]; [|done].
  destruct (total <? e); [done|].
  destruct (mapM _ _); [|done]. intros [= <-].
  rewrite current_make_current_if_first.
  by destruct (current_animation self) eqn:Hc; cbn; rewrite Hc.
Qed.

(** C9, as the code has it: a newly constructed character has no clip
    selected, and [update()] is a no-op for as long as none is; but the
    first registration that succeeds makes the clip it registers the
    current animation, without any call to [play_animation], and later
    registrations keep the current animation.  So a reachable character
    has no clip selected exactly when it has no clip registered. *)
Theorem registration_selects_first_clip :
  (∀ x y scale direction_mode,
     current_animation (__init__ x y scale direction_mode) = None) ∧
  (∀ self, current_animation self = None → update self = Ok () self) ∧
  (∀ self, reachable self →
     (current_animation self = None ↔ animations self = ∅)) ∧
  (∀ name loaded w h frames speed loop self self',
     add_animation name loaded w h frames speed loop self = Ok true self' →
     current_animation self' = Some (default name (current_animation self))) ∧
  (∀ name n speed loop self self',
     add_animation_from_master name n speed loop self = Ok true self' →
     current_animation self' = Some (default name (current_animation self))) ∧
  (∀ name s e speed loop self self',
     add_animation_from_range name s e speed loop self = Ok true self' →
     current_animation self' = Some (default name (current_animation self))).
Proof.
  split_and!.
  - done.
  - intros self Hc. unfold update. by rewrite Hc.
  - intros self Hreach.
    destruct (reachable_well_formed self Hreach) as (Hnone & Hsome & _).
    split; [done|]. intros Hempty.
    destruct (current_animation self) as [c|] eqn:Hc; [|done].
    destruct (Hsome c eq_refl) as [a Ha].
    by rewrite Hempty, lookup_empty in Ha.
  - apply add_animation_current.
  - apply add_animation_from_master_current.
  - apply add_animation_from_range_current.
Qed.

(** C9 as stated fails at the first registration: it makes the clip
    current, and [update()] then advances the tick although
    [play_animation] was never called. *)
Lemma registration_selects_without_play :
  current_animation (__init__ 0 0 1 AUTO_FLIP) = None ∧
  ∃ self' self'',
    add_animation "idle" (Some sheet512) 64 64 4 15 true
      (__init__ 0 0 1 AUTO_FLIP) = Ok true self' ∧
    current_animation self' = Some "idle" ∧
    update self' = Ok () self'' ∧
    animation_timer self' = 0 ∧ animation_timer self'' = 1.
Proof.
  split; [reflexivity|].
  exists (call (call_add_animation "idle" (Some sheet512) 64 64 4 15 true)
            (__init__ 0 0 1 AUTO_FLIP)),
         (call call_update
            (call (call_add_animation "idle" (Some sheet512) 64 64 4 15 true)
               (__init__ 0 0 1 AUTO_FLIP))).
  split_and!; evaluated.
Qed.

(** ** Registration under a name that is taken *)





(** The clip that is playing replaced by a shorter one, as the source
    allows: the cursor stays on frame 0, tick 0 of ["walk"]. *)
Example registration_replaces_current :
  let self' :=
    call (call_add_animation_from_range "walk" 1 4 20 false) walking_hero in
  add_animation_from_range "walk" 1 4 20 false walking_hero = Ok true self' ∧
  (frames <$> animations self' !! "walk") = Some 4 ∧
  current_animation self' = Some "walk" ∧
  current_frame self' = 0 ∧ animation_timer self' = 0.
Proof. split_and!; evaluated. Qed.

(** ** The invariant of the playback cursor *)




Section registered_cursor.
Context (self self1 : AnimatedCharacter) (name : string) (a : Animation).
Context (w h : Z).
Hypothesis Hmap : animations self1 = <[name := a]> (animations self).
Hypothesis Hcur : current_animation self1 = current_animation self.
Hypothesis Hframe : current_frame self1 = current_frame self.
Hypothesis Htimer : animation_timer self1 = animation_timer self.
Hypothesis Hspeed : animation_speed self1 = animation_speed self.

End registered_cursor.














(** * Further properties of the module *)

(** ** The grid *)

(** X1: the pixel position of a frame determines its index: with cells of
    non-zero size, [row * columns + col] computed back from the position
    ([row = y div cellHeight], [col = x div cellWidth]) is the index the
    position was computed from; so two different indices never share a
    position. *)
Theorem frame_position_index
  (self : AnimatedCharacter) (index px py : Z) :
  master_frame_width self ≠ 0 →
  master_frame_height self ≠ 0 →
  frame_position self index = Some (px, py) →
  (py / master_frame_height self) * master_columns self
    + px / master_frame_width self = index ∧
  (∀ j, frame_position self j = Some (px, py) → j = index).
Proof.
  intros Hw Hh.
  assert (∀ i x y, frame_position self i = Some (x, y) →
            (y / master_frame_height self) * master_columns self
              + x / master_frame_width self = i) as Hback.
  { intros i x y. unfold frame_position, floordiv, pymod.
    destruct (Z.eqb_spec (master_columns self) 0) as [|Hc]; [done|].
    intros [= <- <-]. rewrite !Z.div_mul by done.
    pose proof (Z.div_mod i (master_columns self) Hc). lia. }
  intros Hpos. split; [by apply Hback|].
  intros j Hj. apply Hback in Hpos. apply Hback in Hj. lia.
Qed.

Lemma frame_position_index_witness :
  (256 / master_frame_height hero) * master_columns hero
    + 192 / master_frame_width hero = 35 ∧
  (∀ j, frame_position hero j = Some (192, 256) → j = 35).
Proof.
  apply (frame_position_index hero 35 192 256);
    [ vm_compute; discriminate | vm_compute; discriminate | reflexivity ].
Defined.

Lemma grid_position_inside (width height cw ch columns rows index : Z) :
  0 < cw → 0 < ch → 0 < columns →
  columns = width / cw → rows = height / ch →
  0 ≤ index < columns * rows →
  let p := grid_position columns cw ch index in
  0 ≤ p.1 ∧ p.1 + cw ≤ width ∧ 0 ≤ p.2 ∧ p.2 + ch ≤ height.
Proof.
  intros Hcw Hch Hc Hcols Hrows Hi. unfold grid_position. cbn.
  pose proof (Z.mod_pos_bound index columns Hc) as Hcol.
  assert (0 ≤ index / columns < rows) as Hrow.
  { split; [apply Z.div_pos; lia|]. apply Z.div_lt_upper_bound; lia. }
  pose proof (Z.mul_div_le width cw Hcw) as Hwidth.
  pose proof (Z.mul_div_le height ch Hch) as Hheight.
  rewrite <- Hcols in Hwidth. rewrite <- Hrows in Hheight.
  split_and!; nia.
Qed.

(** X2: a clip registered by [add_animation_from_range] never reaches
    outside the sheet when the column count the sheet was loaded with is
    the number of cells that fit its width: every frame rectangle
    [(x, y, cellWidth, cellHeight)] of the clip lies within
    [sheetWidth x sheetHeight]. *)
Theorem add_animation_from_range_inside_sheet
  (name : string) (s e speed : Z) (loop : bool)
  (self self' : AnimatedCharacter) (sheet : Surface) :
  master_sprite_sheet self = Some sheet →
  0 < master_frame_width self →
  0 < master_frame_height self →
  0 ≤ get_width sheet →
  master_columns self = get_width sheet / master_frame_width self →
  add_animation_from_range name s e speed loop self = Ok true self' →
  ∃ a frame_positions,
    animations self' !! name = Some a ∧
    mode a = range_mode frame_positions s e ∧
    ∀ px py, (px, py) ∈ frame_positions →
      0 ≤ px ∧ px + master_frame_width self ≤ get_width sheet ∧
      0 ≤ py ∧ py + master_frame_height self ≤ get_height sheet.
Proof.
  intros Hsheet Hw Hh Hwidth Hcols. unfold add_animation_from_range.
  rewrite Hsheet. unfold total_frames, floordiv.
  destruct (Z.eqb_spec (master_frame_width self) 0); [lia|].
  destruct (Z.eqb_spec (master_frame_height self) 0); [lia|].
  destruct (Z.ltb_spec s 1); [done|].
  destruct (Z.ltb_spec e s); [done|].
  rewrite <- Hcols.
  destruct (Z.ltb_spec
              (master_columns self * (get_height sheet / master_frame_height self))
              e) as [|Hcap]; [done|].
  assert (0 < master_columns self) as Hc.
  { assert (0 ≤ master_columns self)
      by (rewrite Hcols; apply Z.div_pos; lia).
    destruct (decide (master_columns self = 0)) as [Hz|]; [|lia].
    rewrite Hz in Hcap. lia. }
  rewrite frame_positions_grid by lia. intros [= <-].
  do 2 eexists. split.
  { rewrite animations_make_current_if_first. apply lookup_insert_eq. }
  split; [reflexivity|].
  intros px py Hin. apply list_elem_of_fmap in Hin as (i & Hp & Hi).
  unfold range in Hi. apply elem_of_seqZ in Hi.
  pose proof (grid_position_inside (get_width sheet) (get_height sheet)
                (master_frame_width self) (master_frame_height self)
                (master_columns self)
                (get_height sheet / master_frame_height self)
                (s - 1 + i) Hw Hh Hc Hcols eq_refl ltac:(lia)) as Hinside.
  rewrite <- Hp in Hinside. exact Hinside.
Qed.

Lemma add_animation_from_range_inside_sheet_witness :
  ∃ a frame_positions,
    animations (call (call_add_animation_from_range "walk" 33 40 12 true) hero)
      !! "walk" = Some a ∧
    mode a = range_mode frame_positions 33 40 ∧
    ∀ px py, (px, py) ∈ frame_positions →
      0 ≤ px ∧ px + master_frame_width hero ≤ get_width sheet512 ∧
      0 ≤ py ∧ py + master_frame_height hero ≤ get_height sheet512.
Proof.
  apply (add_animation_from_range_inside_sheet "walk" 33 40 12 true hero
           (call (call_add_animation_from_range "walk" 33 40 12 true) hero)
           sheet512);
    [ reflexivity | vm_compute; reflexivity | vm_compute; reflexivity
    | vm_compute; discriminate | reflexivity | vm_compute; reflexivity ].
Defined.

(** With a column count larger than what fits the width the same range
    is accepted and reads beyond the right edge: the check compares
    [end_frame] with the capacity of the sheet, not with the positions. *)
Example add_animation_from_range_beyond_edge :
  let wide := call (call_load_master_sprite_sheet (Some sheet512) 64 64 16)
                (__init__ 0 0 1 AUTO_FLIP) in
  (mode <$> animations (call (call_add_animation_from_range "run" 9 10 8 true)
                          wide) !! "run")
    = Some (range_mode [(512, 0); (576, 0)] 9 10).
Proof. vm_compute. reflexivity. Qed.

(** ** Registration from the master sheet, continued *)






(** *** A clip without frames *)









(** ** Clips for the two directions *)


(** ** The helper functions that build a hero *)


(** X20: the hero of [create_hero_separate_sprites] holds exactly the
    clips whose image could be loaded, and its current animation is the
    first of ["idle"], ["walk"], ["jump"] that was: a missing ["idle"]
    image makes ["walk"] the animation the hero starts with, and a hero
    none of whose images loaded has no animation at all. *)
Theorem create_hero_separate_sprites_current
  (x y : Z) (scale : Q) (idle walk jump : option Surface) (frame_size : Z) :
  ∃ hero,
    create_hero_separate_sprites x y scale idle walk jump frame_size
      = Ok () hero ∧
    current_animation hero =
      match idle, walk, jump with
      | Some _, _, _ => Some "idle"
      | None, Some _, _ => Some "walk"
      | None, None, Some _ => Some "jump"
      | None, None, None => None
      end ∧
    animation_speed hero =
      match idle, walk, jump with
      | Some _, _, _ => 15
      | None, Some _, _ => 8
      | None, None, Some _ => 6
      | None, None, None => 10
      end ∧
    (is_Some (animations hero !! "idle") ↔ is_Some idle) ∧
    (is_Some (animations hero !! "walk") ↔ is_Some walk) ∧
    (is_Some (animations hero !! "jump") ↔ is_Some jump) ∧
    (∀ name, is_Some (animations hero !! name) →
             name = "idle" ∨ name = "walk" ∨ name = "jump").
Proof.
  unfold create_hero_separate_sprites, add_animation.
  destruct idle as [i|], walk as [w|], jump as [j|]; cbn [bind];
    eexists; (split; [reflexivity|]);
    (split; [reflexivity|]); (split; [reflexivity|]);
    (split; [first [ by (split; intros _; vm_compute; eauto)
                   | by (vm_compute; split; intros [? ?]) ]|]);
    (split; [first [ by (split; intros _; vm_compute; eauto)
                   | by (vm_compute; split; intros [? ?]) ]|]);
    (split; [first [ by (split; intros _; vm_compute; eauto)
                   | by (vm_compute; split; intros [? ?]) ]|]);
    intros name [a Ha]; cbn in Ha;
    repeat (rewrite lookup_insert in Ha;
            destruct (decide _) as [<-|]; [by eauto|]);
    by rewrite lookup_empty in Ha.
Qed.

(** ** [update], continued *)

(** [update] in one piece: a new tick, a new frame index and the clip's
    [finished] flag, then the image. *)
Lemma update_unfold self c a :
  current_animation self = Some c →
  animations self !! c = Some a →
  ∃ t f a',
    update self =
      _update_image
        (with_animations (<[c := a']> (animations self))
           (with_current_frame f (with_animation_timer t self))) ∧
    (a' = a ∨ (a' = set_finished true a ∧ loop a = false)).
Proof.
  intros Hc Ha. unfold update. rewrite Hc, Ha.
  cbn [animation_speed animation_timer with_animation_timer].
  pose proof (insert_id (animations self) c a Ha) as Hid.
  destruct (_ <=? _).
  - cbn [current_frame with_current_frame with_animation_timer].
    destruct (_ <=? _).
    + destruct (loop a) eqn:Hloop.
      * exists 0, 0, a. split; [|by left].
        rewrite Hid. by destruct self.
      * exists 0, (frames a - 1), (set_finished true a). split; [|by right].
        by destruct self.
    + exists 0, (current_frame self + 1), a. split; [|by left].
      rewrite Hid. by destruct self.
  - exists (animation_timer self + 1), (current_frame self), a.
    split; [|by left]. rewrite Hid. by destruct self.
Qed.




(** X7: [is_animation_finished()] never raises on a character a program
    can hold and changes nothing; it answers [True] while no animation is
    current and the [finished] flag of the current clip otherwise, which
    for a looping clip is always [False]. *)
Theorem is_animation_finished_answer (self : AnimatedCharacter) :
  reachable self →
  ∃ answer,
    is_animation_finished self = Ok answer self ∧
    (current_animation self = None → answer = true) ∧
    (∀ c a, current_animation self = Some c →
            animations self !! c = Some a →
            answer = finished a ∧ (loop a = true → answer = false)).
Proof.
  intros Hreach.
  destruct (reachable_well_formed self Hreach) as (_ & Hsome & Hclips).
  unfold is_animation_finished.
  destruct (current_animation self) as [c|] eqn:Hc.
  - destruct (Hsome c eq_refl) as [a Ha]. rewrite Ha.
    exists (finished a). split; [done|]. split; [done|].
    intros c' a' [= <-] Ha'. rewrite Ha in Ha'. injection Ha' as <-.
    split; [done|]. by apply (Hclips c a Ha).
  - exists true. by split_and!.
Qed.

Lemma is_animation_finished_answer_witness :
  ∃ answer,
    is_animation_finished walking_hero = Ok answer walking_hero ∧
    (current_animation walking_hero = None → answer = true) ∧
    (∀ c a, current_animation walking_hero = Some c →
            animations walking_hero !! c = Some a →
            answer = finished a ∧ (loop a = true → answer = false)).
Proof.
  apply (is_animation_finished_answer walking_hero).
  exact walking_hero_reachable.
Defined.

(** X15: [update()] only moves the cursor and redraws.  Whether it
    returns or raises, the position, the rectangle, the facing, the
    direction mode, the master sheet with its cursor, the speed in use
    and the current animation are what they were, the same names are
    registered, and a clip changes at most in its [finished] flag. *)
Theorem update_keeps (self : AnimatedCharacter) :
  let self' := state_of (update self) in
  x self' = x self ∧ y self' = y self ∧ rect self' = rect self ∧
  facing_right self' = facing_right self ∧
  direction_mode self' = direction_mode self ∧
  master_sprite_sheet self' = master_sprite_sheet self ∧
  master_columns self' = master_columns self ∧
  next_frame_index self' = next_frame_index self ∧
  animation_speed self' = animation_speed self ∧
  current_animation self' = current_animation self ∧
  (∀ name,
     animations self' !! name = animations self !! name ∨
     ∃ a, animations self !! name = Some a ∧
          animations self' !! name = Some (set_finished true a)).
Proof.
  cbn zeta.
  destruct (current_animation self) as [c|] eqn:Hc;
    [|unfold update; rewrite Hc; cbn; split_and!; try done; by left].
  destruct (animations self !! c) as [a|] eqn:Ha;
    [|unfold update; rewrite Hc, Ha; cbn; split_and!; try done; by left].
  destruct (update_unfold self c a Hc Ha) as (t & f & a' & -> & Ha').
  match goal with |- context [_update_image ?s] =>
    destruct (update_image_state s) as [->|[img ->]]
  end; cbn; (split_and!; try done); intros name;
    (destruct (decide (c = name)) as [<-|Hne];
     [rewrite lookup_insert_eq, Ha; destruct Ha' as [->|[-> _]];
      [by left|right; by exists a]
     |rewrite lookup_insert_ne by done; by left]).
Qed.

(** ** The frame shown after [k] calls *)







(** ** The image *)

(** X18: after an [update()] that returned with an animation current,
    [self.image] is the frame at the cursor: the rectangle cut out of the
    clip's sheet has the size of a cell and sits at [(current_frame *
    frame_width, 0)] for a clip with a sheet of its own and at
    [frame_positions[current_frame]] for a clip of the master sheet; it is
    mirrored exactly when the mode is [AUTO_FLIP] and the character faces
    left, it keeps the size of the cell when the scale is 1, and
    [_original_image] holds the same picture. *)
Theorem update_image (self self' : AnimatedCharacter) (c : string)
  (a : Animation) :
  update self = Ok () self' →
  current_animation self' = Some c →
  animations self' !! c = Some a →
  ∃ fx fy flipped w h,
    image self' =
      frame (sprite_image a) (fx, fy, frame_width a, frame_height a)
        flipped w h ∧
    _original_image self' = Some (image self') ∧
    match mode a with
    | separate => (fx, fy) = (current_frame self' * frame_width a, 0)
    | master frame_positions
    | range_mode frame_positions _ _ =>
        getitem frame_positions (current_frame self') = Some (fx, fy)
    end ∧
    (flipped = true ↔
     direction_mode self' = AUTO_FLIP ∧ facing_right self' = false) ∧
    (Qeq_bool (scale self') 1 = true →
     w = frame_width a ∧ h = frame_height a).
Proof.
  intros Hup Hc' Ha'.
  assert (∃ s2, update self = _update_image s2) as [s2 Hs2].
  { unfold update. destruct (current_animation self) as [c0|] eqn:Hc0.
    - destruct (animations self !! c0) as [a0|] eqn:Ha0.
      + destruct (update_unfold self c0 a0 Hc0 Ha0) as (t & f & a1 & Hu & _).
        unfold update in Hu. rewrite Hc0, Ha0 in Hu. eauto.
      + unfold update in Hup. by rewrite Hc0, Ha0 in Hup.
    - exists self. unfold _update_image. by rewrite Hc0. }
  rewrite Hs2 in Hup. clear Hs2. unfold _update_image in Hup.
  destruct (current_animation s2) as [c2|] eqn:Hc2;
    [|injection Hup as <-; congruence].
  destruct (animations s2 !! c2) as [a2|] eqn:Ha2; [|done].
  destruct (match mode a2 with
            | separate => _ | master _ => _ | range_mode _ _ _ => _
            end) as [[fx fy]|] eqn:Hpos; [|done].
  assert (∃ w h,
    self' = with_original_image
              (Some (frame (sprite_image a2)
                       (fx, fy, frame_width a2, frame_height a2)
                       (bool_decide (direction_mode s2 = AUTO_FLIP)
                        && negb (facing_right s2)) w h))
              (with_image (frame (sprite_image a2)
                             (fx, fy, frame_width a2, frame_height a2)
                             (bool_decide (direction_mode s2 = AUTO_FLIP)
                              && negb (facing_right s2)) w h) s2) ∧
    (Qeq_bool (scale s2) 1 = true →
     w = frame_width a2 ∧ h = frame_height a2)) as (w & h & -> & Hsize).
  { destruct (Qeq_bool (scale s2) 1); cbn [negb] in Hup;
      injection Hup as <-; do 2 eexists; (split; [reflexivity|]); done. }
  cbn in Hc', Ha'. rewrite Hc2 in Hc'. injection Hc' as <-.
  rewrite Ha2 in Ha'. injection Ha' as <-.
  eexists fx, fy, _, w, h. split; [reflexivity|]. split; [reflexivity|].
  cbn. split_and!.
  - destruct (mode a2); [by injection Hpos as <- <-|done|done].
  - rewrite andb_true_iff, bool_decide_eq_true, negb_true_iff. done.
  - done.
Qed.

Lemma update_image_witness :
  ∃ fx fy flipped w h,
    image (call call_update walking_hero) =
      frame (sprite_image walk_clip)
        (fx, fy, frame_width walk_clip, frame_height walk_clip)
        flipped w h ∧
    _original_image (call call_update walking_hero)
      = Some (image (call call_update walking_hero)) ∧
    match mode walk_clip with
    | separate =>
        (fx, fy) = (current_frame (call call_update walking_hero)
                    * frame_width walk_clip, 0)
    | master frame_positions
    | range_mode frame_positions _ _ =>
        getitem frame_positions (current_frame (call call_update walking_hero))
          = Some (fx, fy)
    end ∧
    (flipped = true ↔
     direction_mode (call call_update walking_hero) = AUTO_FLIP ∧
     facing_right (call call_update walking_hero) = false) ∧
    (Qeq_bool (scale (call call_update walking_hero)) 1 = true →
     w = frame_width walk_clip ∧ h = frame_height walk_clip).
Proof.
  apply (update_image walking_hero (call call_update walking_hero) "walk"
           walk_clip); vm_compute; reflexivity.
Defined.

(** ** [play_animation], continued *)

Lemma play_animation_resolved name reset self :
  play_animation name reset self =
    match resolved_name name self with
    | None => self
    | Some resolved =>
        match animations self !! resolved with
        | None => self
        | Some animation =>
            if negb (bool_decide (current_animation self = Some resolved))
               || reset
            then
              _update_sprite_attributes
                (with_animations
                   (<[resolved := set_finished false animation]>
                      (animations self))
                   (with_current_frame_height (frame_height animation)
                      (with_current_frame_width (frame_width animation)
                         (with_animation_speed (speed animation)
                            (with_animation_timer 0
                               (with_current_frame 0
                                  (with_current_animation (Some resolved)
                                     self)))))))
            else self
        end
    end.
Proof. reflexivity. Qed.

Lemma append_not_self (name suffix : string) :
  suffix ≠ "" → name +:+ suffix ≠ name.
Proof.
  intros Hs. induction name as [|ch name IH]; [done|].
  cbn. intros [= H]. by apply IH.
Qed.

(** The name [play_animation] resolves to does not depend on which clips
    are finished nor on the cursor. *)
Lemma resolved_name_insert name self self' r a a' :
  direction_mode self' = direction_mode self →
  facing_right self' = facing_right self →
  animations self !! r = Some a →
  animations self' = <[r := a']> (animations self) →
  resolved_name name self' = resolved_name name self.
Proof.
  intros Hm Hf Ha Hmap. unfold resolved_name. rewrite Hm, Hf, Hmap.
  destruct (bool_decide _); [|done].
  set (d := name +:+ (if facing_right self then "_right" else "_left")).
  destruct (decide (r = d)) as [Hd|Hd].
  - rewrite <- Hd, lookup_insert_eq, Ha. done.
  - rewrite (lookup_insert_ne _ r d) by done.
    destruct (animations self !! d); [done|].
    destruct (decide (r = name)) as [<-|Hn].
    + by rewrite lookup_insert_eq, Ha.
    + by rewrite lookup_insert_ne.
Qed.

(** X8: asking again for the animation that is playing, with
    [reset=False], does not restart it: [play_animation(name, False)]
    right after [play_animation(name, reset)] changes nothing, whatever the
    mode and whether or not the first call found a clip. *)
Theorem play_animation_again
  (name : string) (reset : bool) (self : AnimatedCharacter) :
  play_animation name false (play_animation name reset self)
    = play_animation name reset self.
Proof.
  rewrite (play_animation_resolved name reset self).
  destruct (resolved_name name self) as [r|] eqn:Hr;
    [|by rewrite play_animation_resolved, Hr].
  destruct (animations self !! r) as [a|] eqn:Ha;
    [|by rewrite play_animation_resolved, Hr, Ha].
  destruct (negb (bool_decide (current_animation self = Some r)) || reset)
    eqn:Hcond.
  - rewrite play_animation_resolved.
    match goal with |- context [resolved_name name ?s'] =>
      rewrite (resolved_name_insert name self s' r a (set_finished false a)
                 eq_refl eq_refl Ha eq_refl)
    end.
    rewrite Hr. cbn [animations _update_sprite_attributes with_animations
                     with_y with_x with_rect with_image].
    rewrite lookup_insert_eq.
    cbn [current_animation _update_sprite_attributes with_animations
         with_y with_x with_rect with_image with_current_frame_height
         with_current_frame_width with_animation_speed with_animation_timer
         with_current_frame with_current_animation].
    by rewrite bool_decide_eq_true_2.
  - rewrite play_animation_resolved, Hr, Ha.
    apply orb_false_iff in Hcond as [Hcur _]. by rewrite Hcur.
Qed.

(** X9: outside [SEPARATE_DIRECTIONS] the clips named after a direction
    play no part: [play_animation(name)] puts on the clip registered under
    exactly [name], and changes nothing when there is none, also when
    [name + "_left"] or [name + "_right"] is registered. *)
Theorem play_animation_plain
  (name : string) (reset : bool) (self : AnimatedCharacter) :
  direction_mode self ≠ SEPARATE_DIRECTIONS →
  (animations self !! name = None → play_animation name reset self = self) ∧
  (is_Some (animations self !! name) →
   plays name reset self (play_animation name reset self)).
Proof.
  intros Hmode. rewrite play_animation_resolved. unfold resolved_name.
  rewrite bool_decide_eq_false_2 by done. split.
  - by intros ->.
  - intros [a Ha]. rewrite Ha. unfold plays.
    case_bool_decide as Hcur; destruct reset; cbn [negb orb];
      (split; [done|]); intros Hwhy;
      try (exists a; split_and!; done).
    destruct Hwhy; done.
Qed.

Lemma play_animation_plain_witness :
  (animations (set_direction_mode AUTO_FLIP directional_hero) !! "walk" = None →
   play_animation "walk" true (set_direction_mode AUTO_FLIP directional_hero)
     = set_direction_mode AUTO_FLIP directional_hero) ∧
  (is_Some (animations (set_direction_mode AUTO_FLIP directional_hero) !! "walk") →
   plays "walk" true (set_direction_mode AUTO_FLIP directional_hero)
     (play_animation "walk" true
        (set_direction_mode AUTO_FLIP directional_hero))).
Proof.
  apply (play_animation_plain "walk" true
           (set_direction_mode AUTO_FLIP directional_hero)).
  vm_compute. discriminate.
Defined.



(** ** What every call keeps *)

(** The attributes [update] writes: the cursor, the clips and, when it
    returns, the two images. *)
Lemma update_shape self :
  ∃ t f m,
    state_of (update self) =
      with_animations m (with_current_frame f (with_animation_timer t self)) ∨
    ∃ img,
      state_of (update self) =
        with_original_image (Some img)
          (with_image img
             (with_animations m
                (with_current_frame f (with_animation_timer t self)))).
Proof.
  destruct (current_animation self) as [c|] eqn:Hc.
  - destruct (animations self !! c) as [a|] eqn:Ha.
    + destruct (update_unfold self c a Hc Ha) as (t & f & a' & -> & _).
      exists t, f, (<[c:=a']> (animations self)).
      match goal with |- context [_update_image ?s] =>
        destruct (update_image_state s) as [->|[img ->]]
      end; [by left|right; by exists img].
    + exists (animation_timer self), (current_frame self), (animations self).
      left. unfold update. rewrite Hc, Ha. by destruct self.
  - exists (animation_timer self), (current_frame self), (animations self).
    left. unfold update. rewrite Hc. by destruct self.
Qed.

Lemma direction_mode_call c self :
  direction_mode (call c self) = direction_mode self ∨
  known_mode (direction_mode (call c self)).
Proof.
  destruct c; cbn [call].
  - unfold set_direction_mode. case_bool_decide; [by right|by left].
  - by left.
  - left. unfold load_master_sprite_sheet. by destruct loaded.
  - left. unfold add_animation_from_master.
    destruct (master_sprite_sheet self); [|done].
    destruct (mapM _ _); [|done]. cbn [state_of].
    unfold make_current_if_first. by destruct (current_animation _).
  - left. unfold add_animation. destruct loaded; [|done]. cbn [state_of].
    unfold make_current_if_first. by destruct (current_animation _).
  - left. unfold add_directional_animation, add_animation.
    destruct left_sprite, right_sprite; cbn [bind state_of];
      unfold make_current_if_first;
      repeat (destruct (current_animation _); cbn); done.
  - left. rewrite play_animation_resolved.
    destruct (resolved_name name self); [|done].
    destruct (animations self !! _); [|done].
    by destruct (negb _ || reset).
  - left. destruct (update_shape self) as (t & f & m & [->|[img ->]]); done.
  - left. unfold move. destruct (negb _); [|done].
    destruct (0 <? dx); [done|]. by destruct (dx <? 0).
  - by left.
  - left. unfold add_animation_from_range.
    destruct (master_sprite_sheet self) as [sheet|]; [|done].
    destruct (start_frame <? 1); [done|].
    destruct (end_frame <? start_frame); [done|].
    destruct (total_frames sheet self) as [total|]; [|done].
    destruct (total <? end_frame); [done|].
    destruct (mapM _ _); [|done]. cbn [state_of].
    unfold make_current_if_first. by destruct (current_animation _).
Qed.

(** X12: [set_direction_mode] stores a mode only if it is one of
    [AUTO_FLIP], [SEPARATE_DIRECTIONS] and [NO_FLIP] and otherwise leaves
    the character as it is, and no other method writes the mode: a
    character whose mode is one of the three keeps it so through any
    sequence of calls. *)
Theorem direction_mode_known
  (calls : list Call) (mode : string) (self : AnimatedCharacter) :
  (¬ known_mode mode → set_direction_mode mode self = self) ∧
  (known_mode (direction_mode self) →
   known_mode (direction_mode (run calls self))).
Proof.
  split.
  - intros Hmode. unfold set_direction_mode.
    by rewrite bool_decide_eq_false_2.
  - revert self. induction calls as [|c calls IH]; intros self Hknown;
      [done|].
    cbn. apply IH.
    destruct (direction_mode_call c self) as [->|?]; done.
Qed.

(** ** The rectangle *)

Lemma update_sprite_attributes_rect self :
  rect_at_position (_update_sprite_attributes self) ∧
  center (rect (_update_sprite_attributes self)) = center (rect self).
Proof.
  unfold rect_at_position, _update_sprite_attributes.
  cbn [rect x y with_image with_rect with_x with_y].
  destruct (rect self) as [[[l t] w] h]. cbn. split; [done|].
  f_equal; lia.
Qed.

Lemma make_current_if_first_rect name speed w h self :
  (rect_at_position self →
   rect_at_position (make_current_if_first name speed w h self)) ∧
  center (rect (make_current_if_first name speed w h self))
    = center (rect self).
Proof.
  unfold make_current_if_first. destruct (current_animation self); [done|].
  split; [intros _|];
    match goal with |- context [_update_sprite_attributes ?s] =>
      apply (update_sprite_attributes_rect s)
    end.
Qed.

(** What the calls other than [move] and [set_position] do to the
    rectangle: it stays on the character, around the same centre. *)
Lemma call_rect c self :
  match c with
  | call_move _ _ | call_set_position _ _ => True
  | _ =>
      (rect_at_position self → rect_at_position (call c self)) ∧
      center (rect (call c self)) = center (rect self)
  end.
Proof.
  destruct c; cbn [call]; try done.
  - unfold set_direction_mode. by destruct (bool_decide _).
  - unfold load_master_sprite_sheet. by destruct loaded.
  - unfold add_animation_from_master.
    destruct (master_sprite_sheet self); [|done].
    destruct (mapM _ _); [|done]. cbn [state_of].
    match goal with |- context [make_current_if_first ?n ?s ?w ?h ?st] =>
      apply (make_current_if_first_rect n s w h st)
    end.
  - unfold add_animation. destruct loaded; [|done]. cbn [state_of].
    match goal with |- context [make_current_if_first ?n ?s ?w ?h ?st] =>
      apply (make_current_if_first_rect n s w h st)
    end.
  - unfold add_directional_animation, add_animation.
    destruct left_sprite, right_sprite; cbn [bind state_of]; try done.
    + match goal with
      |- context [make_current_if_first ?n2 ?s2 ?w2 ?h2
                    (with_animations ?m2
                       (make_current_if_first ?n1 ?s1 ?w1 ?h1 ?st))] =>
        destruct (make_current_if_first_rect n1 s1 w1 h1 st) as [Hr1 Hc1];
        destruct (make_current_if_first_rect n2 s2 w2 h2
                    (with_animations m2
                       (make_current_if_first n1 s1 w1 h1 st))) as [Hr2 Hc2]
      end.
      split; [intros H; apply Hr2, Hr1, H|]. by rewrite Hc2.
    + match goal with |- context [make_current_if_first ?n ?s ?w ?h ?st] =>
        apply (make_current_if_first_rect n s w h st)
      end.
    + match goal with |- context [make_current_if_first ?n ?s ?w ?h ?st] =>
        apply (make_current_if_first_rect n s w h st)
      end.
  - rewrite play_animation_resolved.
    destruct (resolved_name name self); [|done].
    destruct (animations self !! _); [|done].
    destruct (negb _ || reset); [|done].
    split; [intros _|];
      match goal with |- context [_update_sprite_attributes ?s] =>
        apply (update_sprite_attributes_rect s)
      end.
  - destruct (update_shape self) as (t & f & m & [->|[img ->]]); done.
  - unfold add_animation_from_range.
    destruct (master_sprite_sheet self) as [sheet|]; [|done].
    destruct (start_frame <? 1); [done|].
    destruct (end_frame <? start_frame); [done|].
    destruct (total_frames sheet self) as [total|]; [|done].
    destruct (total <? end_frame); [done|].
    destruct (mapM _ _); [|done]. cbn [state_of].
    match goal with |- context [make_current_if_first ?n ?s ?w ?h ?st] =>
      apply (make_current_if_first_rect n s w h st)
    end.
Qed.



(** X14: a change of clip resizes the rectangle around its centre: every
    call other than [move] and [set_position], the registrations and
    [play_animation] among them, leaves [rect.center] where it was. *)
Theorem rect_center_kept (c : Call) (self : AnimatedCharacter) :
  match c with
  | call_move _ _ | call_set_position _ _ => True
  | _ => center (rect (call c self)) = center (rect self)
  end.
Proof.
  pose proof (call_rect c self) as Hc.
  destruct c; try done; apply Hc.
Qed.

(** The rectangle of the hero grows from 64x64 to 192x192 (scale 3)
    around its centre when the first clip is registered. *)
Example rect_center_kept_example :
  rect hero = (400, 300, 64, 64) ∧
  rect walking_hero = (336, 236, 192, 192) ∧
  center (rect hero) = (432, 332) ∧
  center (rect walking_hero) = (432, 332).
Proof. split_and!; vm_compute; reflexivity. Qed.

(** ** The grid shown and the ranges accepted *)




(** ** The presets *)

(** X22: the two presets of [AnimationPresets] cannot be used: each of
    their calls passes [row=...], which [add_animation] does not take, so
    the first call is refused with a [TypeError] on [row] and the
    character is returned as it was given, whatever it is and whether or
    not the sheet can be loaded.  The same call without [row] registers
    the clip with 64x64 cells and [loop=True]. *)
Theorem presets_refused
  (character : AnimatedCharacter) (sprite_sheet : option Surface) :
  setup_platformer_hero character sprite_sheet = TypeError "row" character ∧
  setup_simple_character character sprite_sheet = TypeError "row" character ∧
  (∀ name frames speed,
     add_animation_with name sprite_sheet
       [("frames", VInt frames); ("speed", VInt speed)] character
     = Called (add_animation name sprite_sheet 64 64 frames speed true
                 character)).
Proof.
  split_and!.
  - unfold setup_platformer_hero.
    assert (∀ rest,
      add_animation_with "idle" sprite_sheet (("row", VInt 0) :: rest) character
        = TypeError "row" character) as -> by (intros; reflexivity).
    reflexivity.
  - unfold setup_simple_character.
    assert (∀ rest,
      add_animation_with "idle" sprite_sheet (("row", VInt 0) :: rest) character
        = TypeError "row" character) as -> by (intros; reflexivity).
    reflexivity.
  - intros name frames speed. reflexivity.
Qed.

(** ** Moves *)


